(** * deepgaze: histogram colour classification

    A shallow embedding of [deepgaze/color_classification.py], the class
    [HistogramColorClassifier], and the properties of its methods.

    Numbers.  Histogram bins and comparison scores are floating-point values
    in the program; here they are exact rationals ([Q]), compared with [==].
    The values that numpy produces when it divides by zero (infinities and
    not-a-number) are kept apart in the type [npfloat].

    Collaborators.  The class delegates colour conversion, histogram
    extraction, normalisation and comparison to OpenCV.  The methods are
    given twice.  First with every OpenCV call returning its value: the
    interface [Cv2] and the scores [compareHist]; this reading serves the
    properties of the values and of the state.  Then, in the module
    [Delegated], with the errors the calls raise on arguments they do not
    accept ([Cv2Accepts], and histograms of different lengths for
    [cv2.compareHist]); this reading serves the properties of what is
    raised.  Whatever the second returns, the first returns
    ([delegated_returns_refine]).  A small instance, [Gray1D], is given to
    run the classifier on explicit inputs. *)

From Stdlib Require Import QArith Qminmax Qabs ZArith List String Ascii Bool Lia.
From Stdlib Require Import Setoid Morphisms Lqa Qcanon.
Import ListNotations.

Local Open Scope Q_scope.

(** ** Exceptions and results *)

Inductive exn : Type :=
| ValueError (msg : string)
| AttributeError (msg : string)
| IndexError (msg : string)
| TypeError (msg : string)
| Cv2Error (msg : string).

Inductive result (A : Type) : Type :=
| Ok (a : A)
| Raise (e : exn).

Arguments Ok {A} a.
Arguments Raise {A} e.

Definition bind {A B : Type} (r : result A) (k : A -> result B) : result B :=
  match r with
  | Ok a => k a
  | Raise e => Raise e
  end.

Notation "x <- r ;; k" := (bind r (fun x => k))
  (at level 61, r at next level, right associativity).

Definition raises {A : Type} (r : result A) : Prop :=
  exists e, r = Raise e.

(** [needle] occurs in [s]. *)
Definition contains (s needle : string) : Prop :=
  exists pre post, s = (pre ++ needle ++ post)%string.

(** ** Numeric arrays *)

(** A flattened histogram, one rational per bin. *)
Definition hist : Type := list Q.

Definition Qsum (l : list Q) : Q := fold_right Qplus 0 l.

(** Square root on rationals: exact on squares of rationals, and rounded
    down to 52 fractional bits elsewhere. *)
Definition Qsqrt (q : Q) : Q :=
  let r := Qred q in
  Z.sqrt (Qnum r * Zpos (Qden r) * 4 ^ 52) # (Qden r * 2 ^ 52).

Definition DBL_EPSILON : Q := 1 # (2 ^ 52).

(** ** cv2.compareHist *)

Inductive HistCompMethod : Type :=
| CV_COMP_CORREL
| CV_COMP_INTERSECT.

(** Modelled from the spec: [cv2.compareHist] with [CV_COMP_INTERSECT], which
    is not part of the repository: the sum over bins of the smaller of the
    two values.  This is the score on histograms of equal length; the error
    on other histograms is in [Delegated.cv2_compareHist]. *)
Definition compareHist_intersect (h1 h2 : hist) : Q :=
  Qsum (map (fun p => Qmin (fst p) (snd p)) (combine h1 h2)).

(** The correlation coefficient from the sums of the two vectors, of their
    squares and of their products, and the inverse of the number of bins. *)
Definition correl_of_sums (s1 s2 s11 s12 s22 scale : Q) : Q :=
  let num := s12 - s1 * s2 * scale in
  let denom2 := (s11 - s1 * s1 * scale) * (s22 - s2 * s2 * scale) in
  if Qle_bool (Qabs denom2) DBL_EPSILON then 1 else num / Qsqrt denom2.

(** Modelled from the spec: [cv2.compareHist] with [CV_COMP_CORREL], which is
    not part of the repository: the correlation coefficient of the two
    vectors, computed from the running sums as OpenCV does, with the value 1
    when the denominator vanishes.  This is the score on histograms of equal
    length; the error on other histograms is in
    [Delegated.cv2_compareHist]. *)
Definition compareHist_correl (h1 h2 : hist) : Q :=
  let ps := combine h1 h2 in
  let s1 := Qsum (map fst ps) in
  let s2 := Qsum (map snd ps) in
  let s11 := Qsum (map (fun p => fst p * fst p) ps) in
  let s12 := Qsum (map (fun p => fst p * snd p) ps) in
  let s22 := Qsum (map (fun p => snd p * snd p) ps) in
  let scale := / (Z.of_nat (List.length ps) # 1) in
  correl_of_sums s1 s2 s11 s12 s22 scale.

Definition compareHist (h1 h2 : hist) (m : HistCompMethod) : Q :=
  match m with
  | CV_COMP_INTERSECT => compareHist_intersect h1 h2
  | CV_COMP_CORREL => compareHist_correl h1 h2
  end.

(** ** numpy *)

(** A float64 as numpy can produce it: a finite value, an infinity or
    not-a-number. *)
Inductive npfloat : Type :=
| Finite (q : Q)
| PosInf
| NegInf
| NaN.

(** [np.zeros(n)] *)
Definition np_zeros (n : nat) : list Q := repeat 0 n.

(** [arr[i] = v]; an index outside the array raises. *)
Fixpoint np_setitem (arr : list Q) (i : nat) (v : Q) : result (list Q) :=
  match arr, i with
  | [], _ => Raise (IndexError "index out of bounds")
  | _ :: t, O => Ok (v :: t)
  | x :: t, S j => t' <- np_setitem t j v ;; Ok (x :: t')
  end.

(** [np.sum(arr)] *)
Definition np_sum (arr : list Q) : Q := Qsum arr.

(** One element of [np.divide(arr, d)]: division by zero gives an infinity
    of the sign of the dividend, and 0/0 gives not-a-number (numpy warns and
    does not raise). *)
Definition np_divide1 (d x : Q) : npfloat :=
  if Qeq_bool d 0 then
    match x ?= 0 with
    | Gt => PosInf
    | Lt => NegInf
    | Eq => NaN
    end
  else Finite (x / d).

(** [np.divide(arr, d)], the scalar [d] broadcast over [arr]. *)
Definition np_divide (arr : list Q) (d : Q) : list npfloat :=
  map (np_divide1 d) arr.

Definition npf_add (x y : npfloat) : npfloat :=
  match x, y with
  | Finite a, Finite b => Finite (a + b)
  | NaN, _ | _, NaN => NaN
  | PosInf, NegInf | NegInf, PosInf => NaN
  | PosInf, _ | _, PosInf => PosInf
  | NegInf, _ | _, NegInf => NegInf
  end.

(** The sum of an array that may hold infinities. *)
Definition npf_sum (arr : list npfloat) : npfloat :=
  fold_right npf_add (Finite 0) arr.

(** The array is finite and its elements add up to [v]. *)
Definition sums_to (arr : list npfloat) (v : Q) : Prop :=
  exists q, npf_sum arr = Finite q /\ q == v.

(** The first index of the largest element of [l], scanning from index [i]
    with [best] at [best_i] the largest seen so far. *)
Fixpoint argmax_from (l : list Q) (i : nat) (best : Q) (best_i : nat) : nat :=
  match l with
  | [] => best_i
  | x :: t =>
      if Qle_bool x best then argmax_from t (S i) best best_i
      else argmax_from t (S i) x i
  end.

(** [np.argmax(arr)]; the empty array raises. *)
Definition np_argmax (arr : list Q) : result nat :=
  match arr with
  | [] => Raise (ValueError "attempt to get argmax of an empty sequence")
  | x :: t => Ok (argmax_from t 1 x 0)
  end.

(** ** The OpenCV collaborator *)

Inductive ColorConversionCode : Type :=
| COLOR_BGR2HSV
| COLOR_BGR2GRAY.

(** The image operations the class calls: [cv2.cvtColor],
    [cv2.calcHist([frame], channels, None, histSize, ranges)],
    [cv2.normalize] and [ndarray.flatten], as the values they return.  On
    which arguments the calls raise instead is said by [Cv2Accepts]. *)
Class Cv2 : Type := {
  frame : Type;
  mat : Type;
  cvtColor : frame -> ColorConversionCode -> frame;
  calcHist : frame -> list Z -> list Z -> list Z -> mat;
  normalize : mat -> mat;
  flatten : mat -> hist
}.

(** ** HistogramColorClassifier *)

Record HistogramColorClassifier : Type := {
  channels : list Z;
  hist_size : list Z;
  hist_range : list Z;
  hist_type : string;
  model_list : list hist
}.

(** [__init__] *)
Definition init (channels hist_size hist_range : list Z) (hist_type : string)
  : HistogramColorClassifier :=
  {| channels := channels;
     hist_size := hist_size;
     hist_range := hist_range;
     hist_type := hist_type;
     model_list := [] |}.


(** [returnHistogramComparison]: does not read [self]. *)
Definition returnHistogramComparison (hist_1 hist_2 : hist) (method : string)
  : result Q :=
  if String.eqb method "intersection" then
    Ok (compareHist hist_1 hist_2 CV_COMP_INTERSECT)
  else if String.eqb method "correlation" then
    Ok (compareHist hist_1 hist_2 CV_COMP_CORREL)
  else
    Raise (ValueError ("[DEEPGAZE] color_classification.py: the method specified "
                       ++ method ++ " is not supported.")).

(** The [for model_hist in self.model_list] loop of
    [returnHistogramComparisonArray], from the models still to visit, the
    array filled so far and the counter. *)
Fixpoint comparison_loop (image_hist : hist) (method : string)
    (models : list hist) (comparison_array : list Q) (counter : nat)
  : result (list Q) :=
  match models with
  | [] => Ok comparison_array
  | model_hist :: rest =>
      v <- returnHistogramComparison image_hist model_hist method ;;
      comparison_array' <- np_setitem comparison_array counter v ;;
      comparison_loop image_hist method rest comparison_array' (S counter)
  end.

Section Classifier.

Context {cv : Cv2}.

(** Lines 69-72 of [addModelHistogram]: the histogram of the model frame. *)
Definition addModelHistogram_hist (self : HistogramColorClassifier)
    (model_frame : frame) : hist :=
  let model_frame :=
    if String.eqb (hist_type self) "HSV" then cvtColor model_frame COLOR_BGR2HSV
    else if String.eqb (hist_type self) "GRAY" then cvtColor model_frame COLOR_BGR2GRAY
    else model_frame in
  let hist := calcHist model_frame (channels self) (hist_size self) (hist_range self) in
  flatten (normalize hist).

(** [addModelHistogram]: returns [None] and the updated instance. *)
Definition addModelHistogram (self : HistogramColorClassifier)
    (model_frame : frame) (index : Z) : unit * HistogramColorClassifier :=
  let hist := addModelHistogram_hist self model_frame in
  (tt, {| channels := channels self;
          hist_size := hist_size self;
          hist_range := hist_range self;
          hist_type := hist_type self;
          model_list := model_list self ++ [hist] |}).

(** Lines 101, 102, 104 and 105 of [returnHistogramComparisonArray]: the
    histogram of the query image. *)
Definition returnHistogramComparisonArray_hist (self : HistogramColorClassifier)
    (image : frame) : hist :=
  let image :=
    if String.eqb (hist_type self) "HSV" then cvtColor image COLOR_BGR2HSV
    else if String.eqb (hist_type self) "GRAY" then cvtColor image COLOR_BGR2GRAY
    else image in
  let image_hist := calcHist image (channels self) (hist_size self) (hist_range self) in
  flatten (normalize image_hist).

(** [returnHistogramComparisonArray] *)
Definition returnHistogramComparisonArray (self : HistogramColorClassifier)
    (image : frame) (method : string) : result (list Q) :=
  let comparison_array := np_zeros (List.length (model_list self)) in
  let image_hist := returnHistogramComparisonArray_hist self image in
  comparison_loop image_hist method (model_list self) comparison_array 0.

(** [returnHistogramComparisonProbability] *)
Definition returnHistogramComparisonProbability (self : HistogramColorClassifier)
    (image : frame) (method : string) : result (list npfloat) :=
  comparison_array <- returnHistogramComparisonArray self image method ;;
  let comparison_distribution := np_divide comparison_array (np_sum comparison_array) in
  Ok comparison_distribution.

(** The names an instance answers to: the methods of the class body and
    the fields set by [__init__]. *)
Inductive attribute : Type :=
| A_init
| A_addModelHistogram
| A_returnHistogramComparison
| A_returnHistogramComparisonArray
| A_returnHistogramComparisonProbability
| A_returnBestMatchIndex
| A_channels
| A_hist_size
| A_hist_range
| A_hist_type
| A_model_list.

Definition attributes : list (string * attribute) :=
  [ ("__init__", A_init);
    ("addModelHistogram", A_addModelHistogram);
    ("returnHistogramComparison", A_returnHistogramComparison);
    ("returnHistogramComparisonArray", A_returnHistogramComparisonArray);
    ("returnHistogramComparisonProbability", A_returnHistogramComparisonProbability);
    ("returnBestMatchIndex", A_returnBestMatchIndex);
    ("channels", A_channels);
    ("hist_size", A_hist_size);
    ("hist_range", A_hist_range);
    ("hist_type", A_hist_type);
    ("model_list", A_model_list) ]%string.

(** [self.<name>]: a name the instance does not have raises. *)
Definition getattr (name : string) : result attribute :=
  match find (fun p => String.eqb (fst p) name) attributes with
  | Some (_, a) => Ok a
  | None =>
      Raise (AttributeError ("HistogramColorClassifier instance has no attribute '"
                             ++ name ++ "'"))
  end.

(** [f(image, method=method)] for an attribute [f] that yields a
    comparison array.  The class has one call of this shape; the callees
    it cannot reach are left as a type error. *)
Definition call_array_method (f : attribute) (self : HistogramColorClassifier)
    (image : frame) (method : string) : result (list Q) :=
  match f with
  | A_returnHistogramComparisonArray => returnHistogramComparisonArray self image method
  | _ => Raise (TypeError "not a comparison-array method")
  end.

(** [returnBestMatchIndex]: line 135 asks the instance for
    [returnComparisonArray]. *)
Definition returnBestMatchIndex (self : HistogramColorClassifier)
    (image : frame) (method : string) : result nat :=
  f <- getattr "returnComparisonArray" ;;
  comparison_array <- call_array_method f self image method ;;
  np_argmax comparison_array.

End Classifier.

(** ** A concrete collaborator: single-channel frames *)

Module Gray1D.

(** The bin of value [v] among [size] equal bins over [lo, hi). *)
Definition bin_of (size lo hi v : Z) : option nat :=
  if ((lo <=? v) && (v <? hi))%Z
  then Some (Z.to_nat ((v - lo) * size / (hi - lo)))
  else None.

Definition count_bin (size lo hi : Z) (pixels : list Z) (b : nat) : Q :=
  let hits := filter (fun v => match bin_of size lo hi v with
                               | Some k => Nat.eqb k b
                               | None => false
                               end) pixels in
  Z.of_nat (List.length hits) # 1.

(** One-dimensional histogram of a frame given as its pixel values. *)
Definition calcHist1 (pixels : list Z) (channels hist_size hist_range : list Z)
  : list Q :=
  match hist_size, hist_range with
  | [size], [lo; hi] => map (count_bin size lo hi pixels) (seq 0 (Z.to_nat size))
  | _, _ => []
  end.

(** Scaling to Euclidean norm 1, the default of [cv2.normalize]. *)
Definition normalize_L2 (h : list Q) : list Q :=
  let n := Qsqrt (Qsum (map (fun x => x * x) h)) in
  if Qeq_bool n 0 then h else map (fun x => Qred (x / n)) h.

(** Frames are lists of grey levels, histograms are one-dimensional, and
    the colour conversions leave a frame as it is (it has a single channel
    already). *)
#[export] Instance cv : Cv2 := {|
  frame := list Z;
  mat := list Q;
  cvtColor := fun f _ => f;
  calcHist := calcHist1;
  normalize := normalize_L2;
  flatten := fun m => m
|}.

(** A two-bin classifier over the grey levels [0, 256). *)
Definition two_bins : HistogramColorClassifier :=
  init [0]%Z [2]%Z [0; 256]%Z "BGR".

Definition dark : list Z := [10; 20; 30; 40]%Z.
Definition bright : list Z := [200; 210; 220; 230]%Z.
Definition mixed : list Z := [10; 20; 30; 200]%Z.

(** [two_bins] after registering [dark] and then [bright]. *)
Definition dark_bright : HistogramColorClassifier :=
  snd (addModelHistogram (snd (addModelHistogram two_bins dark (-1))) bright (-1)).

End Gray1D.

(** ** Supported comparison methods *)

Definition supported (method : string) : Prop :=
  method = "intersection"%string \/ method = "correlation"%string.

(** The OpenCV metric a supported method name selects. *)
Definition metric_of (method : string) : HistCompMethod :=
  if String.eqb method "intersection" then CV_COMP_INTERSECT else CV_COMP_CORREL.




(** The message of the [ValueError] of [returnHistogramComparison]. *)
Definition unsupported_message (method : string) : string :=
  "[DEEPGAZE] color_classification.py: the method specified "
  ++ method ++ " is not supported.".

(** ** The errors OpenCV raises

    The methods above read every OpenCV call as returning a value.  The
    calls also raise [cv2.error] on arguments they do not accept; the module
    [Delegated] gives the methods again with these errors, which the class
    does not catch. *)

(** The arguments [cv2.cvtColor], [cv2.calcHist] and [cv2.normalize]
    accept; a call on other arguments raises [cv2.error].  Which arguments
    those are is left open. *)
Class Cv2Accepts (cv : Cv2) : Type := {
  cvtColor_accepts : frame -> ColorConversionCode -> bool;
  calcHist_accepts : frame -> list Z -> list Z -> list Z -> bool;
  normalize_accepts : mat -> bool
}.

Module Delegated.

(** Modelled from the spec: [cv2.compareHist], which is not part of the
    repository, on histograms of different lengths: the library raises its
    own error there, and returns the score otherwise. *)
Definition cv2_compareHist (h1 h2 : hist) (m : HistCompMethod) : result Q :=
  if Nat.eqb (List.length h1) (List.length h2)
  then Ok (compareHist h1 h2 m)
  else Raise (Cv2Error "compareHist: the histograms differ in size").

(** [returnHistogramComparison] *)
Definition returnHistogramComparison (hist_1 hist_2 : hist) (method : string)
  : result Q :=
  if String.eqb method "intersection" then
    cv2_compareHist hist_1 hist_2 CV_COMP_INTERSECT
  else if String.eqb method "correlation" then
    cv2_compareHist hist_1 hist_2 CV_COMP_CORREL
  else
    Raise (ValueError ("[DEEPGAZE] color_classification.py: the method specified "
                       ++ method ++ " is not supported.")).

(** The [for model_hist in self.model_list] loop. *)
Fixpoint comparison_loop (image_hist : hist) (method : string)
    (models : list hist) (comparison_array : list Q) (counter : nat)
  : result (list Q) :=
  match models with
  | [] => Ok comparison_array
  | model_hist :: rest =>
      v <- returnHistogramComparison image_hist model_hist method ;;
      comparison_array' <- np_setitem comparison_array counter v ;;
      comparison_loop image_hist method rest comparison_array' (S counter)
  end.

Section Methods.

Context {cv : Cv2} {acc : Cv2Accepts cv}.

Definition cv2_cvtColor (src : frame) (code : ColorConversionCode) : result frame :=
  if cvtColor_accepts src code then Ok (cvtColor src code)
  else Raise (Cv2Error "cvtColor").

Definition cv2_calcHist (image : frame) (channels histSize ranges : list Z)
  : result mat :=
  if calcHist_accepts image channels histSize ranges
  then Ok (calcHist image channels histSize ranges)
  else Raise (Cv2Error "calcHist").

Definition cv2_normalize (src : mat) : result mat :=
  if normalize_accepts src then Ok (normalize src)
  else Raise (Cv2Error "normalize").

(** Lines 69-72 of [addModelHistogram]. *)
Definition addModelHistogram_hist (self : HistogramColorClassifier)
    (model_frame : frame) : result hist :=
  model_frame <-
    (if String.eqb (hist_type self) "HSV" then cv2_cvtColor model_frame COLOR_BGR2HSV
     else if String.eqb (hist_type self) "GRAY" then cv2_cvtColor model_frame COLOR_BGR2GRAY
     else Ok model_frame) ;;
  hist <- cv2_calcHist model_frame (channels self) (hist_size self) (hist_range self) ;;
  hist <- cv2_normalize hist ;;
  Ok (flatten hist).

(** [addModelHistogram]: an error of the library leaves the instance as it
    was. *)
Definition addModelHistogram (self : HistogramColorClassifier)
    (model_frame : frame) (index : Z) : result (unit * HistogramColorClassifier) :=
  hist <- addModelHistogram_hist self model_frame ;;
  Ok (tt, {| channels := channels self;
             hist_size := hist_size self;
             hist_range := hist_range self;
             hist_type := hist_type self;
             model_list := model_list self ++ [hist] |}).

(** Lines 101, 102, 104 and 105 of [returnHistogramComparisonArray]. *)
Definition returnHistogramComparisonArray_hist (self : HistogramColorClassifier)
    (image : frame) : result hist :=
  image <-
    (if String.eqb (hist_type self) "HSV" then cv2_cvtColor image COLOR_BGR2HSV
     else if String.eqb (hist_type self) "GRAY" then cv2_cvtColor image COLOR_BGR2GRAY
     else Ok image) ;;
  image_hist <- cv2_calcHist image (channels self) (hist_size self) (hist_range self) ;;
  image_hist <- cv2_normalize image_hist ;;
  Ok (flatten image_hist).

(** [returnHistogramComparisonArray]: the histogram of the image is taken
    before the loop starts, whatever the model store holds. *)
Definition returnHistogramComparisonArray (self : HistogramColorClassifier)
    (image : frame) (method : string) : result (list Q) :=
  let comparison_array := np_zeros (List.length (model_list self)) in
  image_hist <- returnHistogramComparisonArray_hist self image ;;
  comparison_loop image_hist method (model_list self) comparison_array 0.

(** [returnHistogramComparisonProbability] *)
Definition returnHistogramComparisonProbability (self : HistogramColorClassifier)
    (image : frame) (method : string) : result (list npfloat) :=
  comparison_array <- returnHistogramComparisonArray self image method ;;
  let comparison_distribution := np_divide comparison_array (np_sum comparison_array) in
  Ok comparison_distribution.

End Methods.

End Delegated.

(** What OpenCV accepts of the single-channel frames of [Gray1D]: no
    conversion from BGR, and a histogram over channel 0 with one bin count
    and one range. *)
#[export] Instance Gray1D_accepts : Cv2Accepts Gray1D.cv := {|
  cvtColor_accepts := fun _ _ => false;
  calcHist_accepts := fun _ channels hist_size hist_range =>
    match channels, hist_size, hist_range with
    | [0%Z], [size], [lo; hi] => ((0 <? size) && (lo <? hi))%Z
    | _, _, _ => false
    end;
  normalize_accepts := fun _ => true
|}.

(** [returnHistogramComparison] raises exactly on unsupported methods. *)
Definition raises_iff_unsupported (hist_1 hist_2 : hist) (method : string) : Prop :=
  raises (Delegated.returnHistogramComparison hist_1 hist_2 method)
  <-> method <> "intersection"%string /\ method <> "correlation"%string.

(** * Properties *)

Lemma returnHistogramComparison_supported (hist_1 hist_2 : hist) (method : string) :
  supported method ->
  returnHistogramComparison hist_1 hist_2 method
  = Ok (compareHist hist_1 hist_2 (metric_of method)).
Proof.
  intros [-> | ->]; reflexivity.
Qed.

(** ** Array assignment and the comparison loop *)

Lemma np_setitem_app (done rest : list Q) (x v : Q) :
  np_setitem (done ++ x :: rest) (List.length done) v = Ok (done ++ v :: rest).
Proof.
  induction done as [| d done IH]; simpl.
  - reflexivity.
  - now rewrite IH.
Qed.

(** When every comparison succeeds with [score], the loop started on an
    array whose first [length done] cells are [done] fills the remaining
    cells with the scores of the remaining models, in order. *)
Lemma comparison_loop_fills (image_hist : hist) (method : string) (score : hist -> Q)
    (models : list hist) :
  (forall model_hist,
      returnHistogramComparison image_hist model_hist method = Ok (score model_hist)) ->
  forall done : list Q,
    comparison_loop image_hist method models
      (done ++ np_zeros (List.length models)) (List.length done)
    = Ok (done ++ map score models).
Proof.
  intros Hscore. unfold np_zeros.
  induction models as [| m models IH]; intros done; simpl.
  - reflexivity.
  - rewrite Hscore. simpl. rewrite np_setitem_app. simpl.
    specialize (IH (done ++ [score m])).
    rewrite length_app in IH. simpl in IH. rewrite Nat.add_1_r in IH.
    rewrite <- !app_assoc in IH. simpl in IH. exact IH.
Qed.

Section ClassifierFacts.

Context {cv : Cv2}.

Lemma returnHistogramComparisonArray_map (self : HistogramColorClassifier)
    (image : frame) (method : string) :
  supported method ->
  returnHistogramComparisonArray self image method
  = Ok (map (fun model_hist =>
               compareHist (returnHistogramComparisonArray_hist self image)
                           model_hist (metric_of method))
            (model_list self)).
Proof.
  intros Hm. unfold returnHistogramComparisonArray.
  apply (comparison_loop_fills _ _ _ _
           (fun m => returnHistogramComparison_supported _ m _ Hm) []).
Qed.



(** C5: the histogram [returnHistogramComparisonArray] takes from the query
  image is the one [addModelHistogram] stores for the same image under the
  same configuration: the two pipelines are the same function of the
  configuration and the image. *)
Theorem query_pipeline_is_model_pipeline (self : HistogramColorClassifier)
  (image : frame) (index : Z) (method : string) :
returnHistogramComparisonArray_hist self image = addModelHistogram_hist self image
/\ model_list (snd (addModelHistogram self image index))
   = model_list self ++ [addModelHistogram_hist self image]
/\ returnHistogramComparisonArray self image method
   = comparison_loop (addModelHistogram_hist self image) method (model_list self)
       (np_zeros (List.length (model_list self))) 0.
Proof.
repeat split.
Qed.


(** C7: the [index] argument of [addModelHistogram] has no effect: any two
  index values give the same resulting state, and the new histogram is the
  last element of the store whatever the index. *)
Theorem addModelHistogram_index_ignored (self : HistogramColorClassifier)
  (model_frame : frame) (i j : Z) :
addModelHistogram self model_frame i = addModelHistogram self model_frame j
/\ model_list (snd (addModelHistogram self model_frame i))
   = model_list self ++ [addModelHistogram_hist self model_frame].
Proof.
split; reflexivity.
Qed.

(** C1: [returnBestMatchIndex] never reaches [np.argmax]: the method it
  calls on the instance, [returnComparisonArray], is not a name of the
  class, so every call raises [AttributeError], whatever the state, the
  image and the method. *)
Theorem returnBestMatchIndex_always_raises (self : HistogramColorClassifier)
  (image : frame) (method : string) :
returnBestMatchIndex self image method
= Raise (AttributeError
           "HistogramColorClassifier instance has no attribute 'returnComparisonArray'").
Proof.
reflexivity.
Qed.

End ClassifierFacts.

(** ** The two metrics *)

Lemma Qsqrt_comp (x y : Q) : x == y -> Qsqrt x = Qsqrt y.
Proof.
  intros H. unfold Qsqrt. now rewrite (Qred_complete x y H).
Qed.

Lemma correl_of_sums_sym (s1 s2 s11 s12 s12' s22 scale : Q) :
  s12 == s12' ->
  correl_of_sums s1 s2 s11 s12 s22 scale == correl_of_sums s2 s1 s22 s12' s11 scale.
Proof.
  intros H12. unfold correl_of_sums.
  set (d := (s11 - s1 * s1 * scale) * (s22 - s2 * s2 * scale)).
  set (d' := (s22 - s2 * s2 * scale) * (s11 - s1 * s1 * scale)).
  assert (Hden : d == d') by (unfold d, d'; ring).
  rewrite (Qsqrt_comp _ _ Hden).
  assert (Hb : Qle_bool (Qabs d) DBL_EPSILON = Qle_bool (Qabs d') DBL_EPSILON)
    by now rewrite Hden.
  rewrite Hb.
  destruct (Qle_bool (Qabs d') DBL_EPSILON); [reflexivity |].
  rewrite H12. apply Qmult_comp; [ring | reflexivity].
Qed.

Lemma combine_fst_snd (a b : hist) :
  map fst (combine a b) = map snd (combine b a).
Proof.
  revert b. induction a as [| x a IH]; intros [| y b]; simpl; try reflexivity.
  now rewrite IH.
Qed.

Lemma combine_squares (a b : hist) :
  map (fun p => fst p * fst p) (combine a b)
  = map (fun p => snd p * snd p) (combine b a).
Proof.
  revert b. induction a as [| x a IH]; intros [| y b]; simpl; try reflexivity.
  now rewrite IH.
Qed.

Lemma combine_products (a b : hist) :
  Qsum (map (fun p => fst p * snd p) (combine a b))
  == Qsum (map (fun p => fst p * snd p) (combine b a)).
Proof.
  revert b. induction a as [| x a IH]; intros [| y b]; simpl; try reflexivity.
  rewrite IH. ring.
Qed.

Lemma combine_length_sym (a b : hist) :
  List.length (combine a b) = List.length (combine b a).
Proof.
  rewrite !length_combine. apply Nat.min_comm.
Qed.

Lemma compareHist_intersect_sym (a b : hist) :
  compareHist_intersect a b == compareHist_intersect b a.
Proof.
  unfold compareHist_intersect.
  revert b. induction a as [| x a IH]; intros [| y b]; simpl; try reflexivity.
  rewrite IH, Q.min_comm. reflexivity.
Qed.

Lemma compareHist_correl_sym (a b : hist) :
  compareHist_correl a b == compareHist_correl b a.
Proof.
  unfold compareHist_correl.
  rewrite (combine_fst_snd a b), (combine_squares a b), (combine_length_sym a b).
  rewrite <- (combine_fst_snd b a), <- (combine_squares b a).
  apply correl_of_sums_sym, combine_products.
Qed.

Lemma compareHist_intersect_self (h : hist) :
  compareHist_intersect h h == Qsum h.
Proof.
  unfold compareHist_intersect.
  induction h as [| x h IH]; simpl; [reflexivity |].
  rewrite IH, Q.min_id. reflexivity.
Qed.

(** C8: for equal-length histograms and either supported method,
    [returnHistogramComparison] gives the same score whichever histogram
    comes first. *)
Theorem returnHistogramComparison_symmetric (a b : hist) (method : string) :
  List.length a = List.length b ->
  supported method ->
  exists x y,
    returnHistogramComparison a b method = Ok x
    /\ returnHistogramComparison b a method = Ok y
    /\ x == y.
Proof.
  intros _ Hm.
  exists (compareHist a b (metric_of method)), (compareHist b a (metric_of method)).
  split; [now apply returnHistogramComparison_supported |].
  split; [now apply returnHistogramComparison_supported |].
  destruct (metric_of method); simpl.
  - apply compareHist_correl_sym.
  - apply compareHist_intersect_sym.
Qed.

(** C9: a histogram whose elements sum to 1 compared with itself by
    "intersection" scores 1: the metric adds up the smaller of the two
    values of each bin, and both are the bin's own value. *)
Theorem returnHistogramComparison_self_intersection (h : hist) :
  Qsum h == 1 ->
  exists v, returnHistogramComparison h h "intersection" = Ok v /\ v == 1.
Proof.
  intros Hsum. exists (compareHist_intersect h h). split; [reflexivity |].
  now rewrite compareHist_intersect_self.
Qed.

(** ** The distribution *)

Lemma np_divide_nonzero (scores : list Q) (d : Q) :
  ~ d == 0 ->
  np_divide scores d = map (fun s => Finite (s / d)) scores.
Proof.
  intros Hd. unfold np_divide. apply map_ext. intros s. unfold np_divide1.
  destruct (Qeq_bool d 0) eqn:E; [| reflexivity].
  apply Qeq_bool_eq in E. contradiction.
Qed.

Lemma npf_sum_finite (l : list Q) :
  npf_sum (map Finite l) = Finite (Qsum l).
Proof.
  unfold npf_sum. induction l as [| x l IH]; simpl; [reflexivity |].
  now rewrite IH.
Qed.

Lemma Qsum_div (l : list Q) (d : Q) :
  Qsum (map (fun s => s / d) l) == Qsum l / d.
Proof.
  induction l as [| x l IH]; simpl.
  - unfold Qdiv. ring.
  - rewrite IH. unfold Qdiv. ring.
Qed.

Lemma np_divide_sums_to_one (scores : list Q) :
  ~ np_sum scores == 0 ->
  sums_to (np_divide scores (np_sum scores)) 1.
Proof.
  intros Hd. rewrite (np_divide_nonzero _ _ Hd).
  exists (Qsum (map (fun s => s / np_sum scores) scores)). split.
  - rewrite <- npf_sum_finite, map_map. reflexivity.
  - rewrite Qsum_div. unfold np_sum in *. unfold Qdiv.
    now apply Qmult_inv_r.
Qed.

Lemma Qsum_nonneg (l : list Q) :
  Forall (fun s => 0 <= s) l -> 0 <= Qsum l.
Proof.
  induction 1 as [| x l Hx _ IH]; simpl.
  - apply Qle_refl.
  - rewrite <- (Qplus_0_r 0). now apply Qplus_le_compat.
Qed.

(** Scores none of which is negative and one of which is not zero have a
    nonzero sum. *)
Lemma Qsum_nonneg_nonzero (l : list Q) :
  Forall (fun s => 0 <= s) l ->
  (exists s, In s l /\ ~ s == 0) ->
  ~ Qsum l == 0.
Proof.
  induction 1 as [| x l Hx Hl IH]; intros (s & Hin & Hs); simpl in *.
  - contradiction.
  - pose proof (Qsum_nonneg l Hl) as Hnn. intros Hz.
    assert (Hx0 : x == 0).
    { apply Qle_antisym; [| exact Hx].
      rewrite <- Hz. rewrite <- (Qplus_0_r x) at 1.
      apply Qplus_le_compat; [apply Qle_refl | exact Hnn]. }
    destruct Hin as [<- | Hin]; [contradiction |].
    apply IH; [now exists s |].
    rewrite <- Hz, Hx0. ring.
Qed.

Section Distribution.

Context {cv : Cv2}.


End Distribution.


(** ** The best match *)

Lemma argmax_from_first_max (l : list Q) :
  forall (pre : list Q) (best : Q) (best_i : nat),
    nth_error pre best_i = Some best ->
    Forall (fun x => x <= best) pre ->
    (forall j x, (j < best_i)%nat -> nth_error pre j = Some x -> x < best) ->
    exists m,
      nth_error (pre ++ l) (argmax_from l (List.length pre) best best_i) = Some m
      /\ Forall (fun x => x <= m) (pre ++ l)
      /\ forall j x,
           (j < argmax_from l (List.length pre) best best_i)%nat ->
           nth_error (pre ++ l) j = Some x -> x < m.
Proof.
  induction l as [| x l IH]; intros pre best best_i Hbest Hmax Hfirst; simpl.
  - exists best. rewrite app_nil_r. auto.
  - assert (Hin : (best_i < List.length pre)%nat).
    { apply nth_error_Some. now rewrite Hbest. }
    replace (pre ++ x :: l) with ((pre ++ [x]) ++ l) by now rewrite <- app_assoc.
    replace (S (List.length pre)) with (List.length (pre ++ [x]))
      by (rewrite length_app; simpl; lia).
    destruct (Qle_bool x best) eqn:E.
    + apply Qle_bool_iff in E. apply IH.
      * rewrite nth_error_app1 by exact Hin. exact Hbest.
      * apply Forall_app. split; [exact Hmax | now constructor].
      * intros j y Hj Hy. apply (Hfirst j y Hj).
        rewrite nth_error_app1 in Hy by lia. exact Hy.
    + assert (Hlt : best < x).
      { apply Qnot_le_lt. intros Hle. apply Qle_bool_iff in Hle. congruence. }
      apply IH.
      * rewrite nth_error_app2 by lia. now rewrite Nat.sub_diag.
      * apply Forall_app. split.
        -- eapply Forall_impl; [| exact Hmax]. intros y Hy. simpl in Hy.
           apply Qlt_le_weak. eapply Qle_lt_trans; eassumption.
        -- constructor; [apply Qle_refl | constructor].
      * intros j y Hj Hy. rewrite nth_error_app1 in Hy by exact Hj.
        eapply Qle_lt_trans; [| exact Hlt].
        rewrite Forall_forall in Hmax. apply Hmax.
        eapply nth_error_In; eassumption.
Qed.

(** X1: [np.argmax] of a non-empty array returns the index of a largest
    element, and every element before it is strictly smaller: among equal
    largest elements the lowest index is returned. *)
Lemma np_argmax_first_max (x : Q) (t : list Q) :
  exists i m,
    np_argmax (x :: t) = Ok i
    /\ nth_error (x :: t) i = Some m
    /\ Forall (fun y => y <= m) (x :: t)
    /\ forall j y, (j < i)%nat -> nth_error (x :: t) j = Some y -> y < m.
Proof.
  destruct (argmax_from_first_max t [x] x 0%nat) as (m & Hm & Hall & Hfirst).
  - reflexivity.
  - constructor; [apply Qle_refl | constructor].
  - intros j y Hj. lia.
  - exists (argmax_from t 1 x 0), m. simpl in *. auto.
Qed.

(** The failing input of C1: with the models [dark] and [bright]
    registered, the comparison array of the frame [dark] has its largest
    element at index 0, and [returnBestMatchIndex] raises instead of
    returning it. *)
Example returnBestMatchIndex_on_dark :
  (exists scores,
      returnHistogramComparisonArray (cv := Gray1D.cv)
        Gray1D.dark_bright Gray1D.dark "intersection" = Ok scores
      /\ np_argmax scores = Ok 0%nat)
  /\ returnBestMatchIndex (cv := Gray1D.cv)
       Gray1D.dark_bright Gray1D.dark "intersection"
     = Raise (AttributeError
                "HistogramColorClassifier instance has no attribute 'returnComparisonArray'").
Proof.
  split; [| reflexivity].
  eexists. split; vm_compute; reflexivity.
Qed.

(** ** The theorems at concrete inputs *)



Lemma returnHistogramComparison_symmetric_witness :
  List.length [1 # 2; 1 # 3; 1 # 6] = List.length [0; 3 # 4; 1 # 4]
  /\ supported "correlation"
  /\ exists x y,
       returnHistogramComparison [1 # 2; 1 # 3; 1 # 6] [0; 3 # 4; 1 # 4] "correlation" = Ok x
       /\ returnHistogramComparison [0; 3 # 4; 1 # 4] [1 # 2; 1 # 3; 1 # 6] "correlation" = Ok y
       /\ x == y.
Proof.
  split; [reflexivity |].
  split; [right; reflexivity |].
  apply (returnHistogramComparison_symmetric
           [1 # 2; 1 # 3; 1 # 6] [0; 3 # 4; 1 # 4] "correlation").
  - reflexivity.
  - right; reflexivity.
Defined.

Lemma returnHistogramComparison_self_intersection_witness :
  Qsum [1 # 2; 1 # 3; 1 # 6] == 1
  /\ exists v,
       returnHistogramComparison [1 # 2; 1 # 3; 1 # 6] [1 # 2; 1 # 3; 1 # 6] "intersection"
       = Ok v
       /\ v == 1.
Proof.
  split; [reflexivity |].
  apply (returnHistogramComparison_self_intersection [1 # 2; 1 # 3; 1 # 6]).
  reflexivity.
Defined.

(** ** Registration and queries together *)

Section Registration.

Context {cv : Cv2}.

Lemma addModelHistogram_hist_config (s1 s2 : HistogramColorClassifier) (f : frame) :
  channels s1 = channels s2 ->
  hist_size s1 = hist_size s2 ->
  hist_range s1 = hist_range s2 ->
  hist_type s1 = hist_type s2 ->
  addModelHistogram_hist s1 f = addModelHistogram_hist s2 f.
Proof.
  intros Hc Hs Hr Ht. unfold addModelHistogram_hist.
  now rewrite Hc, Hs, Hr, Ht.
Qed.






End Registration.

(** ** Division by zero *)

Lemma np_divide1_zero (d x : Q) :
  d == 0 ->
  (0 < x -> np_divide1 d x = PosInf)
  /\ (x < 0 -> np_divide1 d x = NegInf)
  /\ (x == 0 -> np_divide1 d x = NaN).
Proof.
  intros Hd. unfold np_divide1.
  apply Qeq_bool_iff in Hd. rewrite Hd.
  repeat split; intros Hx.
  - now rewrite (proj1 (Qgt_alt x 0) Hx).
  - now rewrite (proj1 (Qlt_alt x 0) Hx).
  - now rewrite (proj1 (Qeq_alt x 0) Hx).
Qed.

(** ** Intersection scores *)

Lemma compareHist_intersect_le_first (h m : hist) :
  List.length m = List.length h ->
  compareHist_intersect h m <= Qsum h.
Proof.
  unfold compareHist_intersect. revert m.
  induction h as [| x h IH]; intros [| y m] Hlen; simpl in *.
  - apply Qle_refl.
  - discriminate Hlen.
  - discriminate Hlen.
  - apply Qplus_le_compat; [apply Q.le_min_l | apply IH; congruence].
Qed.

Lemma compareHist_intersect_nonneg (h m : hist) :
  Forall (fun x => 0 <= x) h ->
  Forall (fun x => 0 <= x) m ->
  0 <= compareHist_intersect h m.
Proof.
  unfold compareHist_intersect. intros Hh. revert m.
  induction Hh as [| x h Hx _ IH]; intros m Hm; simpl; [apply Qle_refl |].
  destruct Hm as [| y m Hy Hm]; simpl; [apply Qle_refl |].
  rewrite <- (Qplus_0_r 0).
  apply Qplus_le_compat; [now apply Q.min_glb | now apply IH].
Qed.

Section Intersection.

Context {cv : Cv2}.

(** X7: with "intersection", an image whose histogram is stored at index
    [k] scores there the sum of its own bins, and no model of the same
    length scores higher; [np.argmax] of the comparison array is then an
    index no greater than [k] whose score equals that maximum. *)
Theorem registered_image_scores_highest (self : HistogramColorClassifier)
    (image : frame) (k : nat) :
  nth_error (model_list self) k = Some (returnHistogramComparisonArray_hist self image) ->
  Forall (fun m => List.length m
                   = List.length (returnHistogramComparisonArray_hist self image))
         (model_list self) ->
  exists scores best i s,
    returnHistogramComparisonArray self image "intersection" = Ok scores
    /\ nth_error scores k = Some best
    /\ best == Qsum (returnHistogramComparisonArray_hist self image)
    /\ Forall (fun x => x <= best) scores
    /\ np_argmax scores = Ok i
    /\ (i <= k)%nat
    /\ nth_error scores i = Some s
    /\ s == best.
Proof.
  intros Hk Hlen.
  set (h := returnHistogramComparisonArray_hist self image) in *.
  set (scores := map (fun m => compareHist_intersect h m) (model_list self)).
  assert (Harr : returnHistogramComparisonArray self image "intersection" = Ok scores).
  { apply (returnHistogramComparisonArray_map self image "intersection").
    now left. }
  assert (Hbest : nth_error scores k = Some (compareHist_intersect h h)).
  { unfold scores. now rewrite nth_error_map, Hk. }
  assert (Hself : compareHist_intersect h h == Qsum h)
    by apply compareHist_intersect_self.
  assert (Hall : Forall (fun x => x <= compareHist_intersect h h) scores).
  { unfold scores. apply Forall_map. eapply Forall_impl; [| exact Hlen].
    intros m Hm. simpl. rewrite Hself. now apply compareHist_intersect_le_first. }
  destruct scores as [| x t] eqn:Escores.
  { destruct k; discriminate Hbest. }
  destruct (argmax_from_first_max t [x] x 0%nat) as (m0 & Hm0 & Hmax & Hfirst).
  { reflexivity. }
  { constructor; [apply Qle_refl | constructor]. }
  { intros j y Hj. lia. }
  simpl in Hm0, Hmax, Hfirst.
  assert (Hle1 : m0 <= compareHist_intersect h h).
  { rewrite Forall_forall in Hall. apply Hall.
    eapply nth_error_In; exact Hm0. }
  assert (Hle2 : compareHist_intersect h h <= m0).
  { rewrite Forall_forall in Hmax. apply Hmax.
    eapply nth_error_In; exact Hbest. }
  exists (x :: t), (compareHist_intersect h h), (argmax_from t 1 x 0), m0.
  repeat split; try assumption; try reflexivity.
  - destruct (Nat.le_gt_cases (argmax_from t 1 x 0) k) as [Hik | Hik]; [exact Hik |].
    exfalso. apply (Qlt_not_le _ _ (Hfirst k _ Hik Hbest)). exact Hle1.
  - now apply Qle_antisym.
Qed.

End Intersection.

Lemma Qsum_all_zero (l : list Q) :
  Forall (fun s => s == 0) l -> Qsum l == 0.
Proof.
  induction 1 as [| x l Hx _ IH]; simpl; [reflexivity |].
  rewrite Hx, IH. reflexivity.
Qed.

Lemma npf_sum_nan (d : Q) (l : list Q) :
  d == 0 ->
  Forall (fun s => s == 0) l ->
  l <> [] ->
  npf_sum (np_divide l d) = NaN.
Proof.
  intros Hd Hl Hne. destruct Hl as [| x l Hx _]; [contradiction |].
  unfold npf_sum. simpl.
  destruct (np_divide1_zero d x Hd) as (_ & _ & Hnan).
  rewrite (Hnan Hx). reflexivity.
Qed.

Section IntersectionDistribution.

Context {cv : Cv2}.

(** X8: with "intersection" and histograms that have no negative bin, no
    score is negative, and the distribution sums to 1 exactly when some
    score is not zero. *)
Theorem intersection_distribution_sums_to_one_iff
    (self : HistogramColorClassifier) (image : frame) :
  Forall (fun x => 0 <= x) (returnHistogramComparisonArray_hist self image) ->
  Forall (Forall (fun x => 0 <= x)) (model_list self) ->
  exists scores,
    returnHistogramComparisonArray self image "intersection" = Ok scores
    /\ Forall (fun s => 0 <= s) scores
    /\ returnHistogramComparisonProbability self image "intersection"
       = Ok (np_divide scores (np_sum scores))
    /\ (sums_to (np_divide scores (np_sum scores)) 1
        <-> exists s, In s scores /\ ~ s == 0).
Proof.
  intros Hh Hmodels.
  set (h := returnHistogramComparisonArray_hist self image) in *.
  set (scores := map (fun m => compareHist_intersect h m) (model_list self)).
  assert (Harr : returnHistogramComparisonArray self image "intersection" = Ok scores).
  { apply (returnHistogramComparisonArray_map self image "intersection").
    now left. }
  assert (Hnn : Forall (fun s => 0 <= s) scores).
  { unfold scores. apply Forall_map. eapply Forall_impl; [| exact Hmodels].
    intros m Hm. now apply compareHist_intersect_nonneg. }
  exists scores. split; [exact Harr |]. split; [exact Hnn |].
  split; [unfold returnHistogramComparisonProbability; now rewrite Harr |].
  split.
  - intros (q & Hsum & Hq).
    destruct (Forall_Exists_dec (fun s => s == 0) (fun s => Qeq_dec s 0) scores)
      as [Hzero | Hsome].
    + exfalso. pose proof (Qsum_all_zero _ Hzero) as Hd.
      destruct scores as [| x t] eqn:E.
      * injection Hsum as <-. discriminate Hq.
      * unfold np_sum in Hsum.
        rewrite (npf_sum_nan _ _ Hd Hzero) in Hsum; discriminate.
    + apply Exists_exists in Hsome. exact Hsome.
  - intros Hs. apply np_divide_sums_to_one. now apply Qsum_nonneg_nonzero.
Qed.

End IntersectionDistribution.

(** ** The order of the distribution *)

Lemma Qdiv_le_pos (x y t : Q) : 0 < t -> (x <= y <-> x / t <= y / t).
Proof.
  intros Ht. unfold Qdiv. symmetry. apply Qmult_le_r.
  now apply Qinv_lt_0_compat.
Qed.

Lemma Qdiv_le_neg (x y t : Q) : t < 0 -> (x <= y <-> y / t <= x / t).
Proof.
  intros Ht.
  assert (Hnz : ~ t == 0) by (intros E; rewrite E in Ht; discriminate Ht).
  assert (Hpos : 0 < - t) by lra.
  rewrite <- (Qmult_le_r (y / t) (x / t) (- t) Hpos).
  assert (Ex : x / t * - t == - x) by (field; exact Hnz).
  assert (Ey : y / t * - t == - y) by (field; exact Hnz).
  rewrite Ex, Ey. split; intros H; lra.
Qed.

Section DistributionOrder.

Context {cv : Cv2}.

(** X9: when the scores sum to a positive number the distribution orders
    the models as the scores do; when they sum to a negative number, which
    "correlation" allows, it orders them the other way round: the model
    with the highest score gets the lowest value. *)
Theorem returnHistogramComparisonProbability_order
    (self : HistogramColorClassifier) (image : frame) (method : string)
    (scores : list Q) (i j : nat) (si sj : Q) :
  returnHistogramComparisonArray self image method = Ok scores ->
  nth_error scores i = Some si ->
  nth_error scores j = Some sj ->
  ~ np_sum scores == 0 ->
  exists dist di dj,
    returnHistogramComparisonProbability self image method = Ok dist
    /\ nth_error dist i = Some (Finite di)
    /\ nth_error dist j = Some (Finite dj)
    /\ (0 < np_sum scores -> (si <= sj <-> di <= dj))
    /\ (np_sum scores < 0 -> (si <= sj <-> dj <= di)).
Proof.
  intros Hscores Hi Hj Hnz.
  exists (np_divide scores (np_sum scores)),
         (si / np_sum scores), (sj / np_sum scores).
  split; [unfold returnHistogramComparisonProbability; now rewrite Hscores |].
  rewrite (np_divide_nonzero _ _ Hnz), !nth_error_map, Hi, Hj.
  repeat split; try (intros Ht H).
  - now apply Qdiv_le_pos.
  - now apply (Qdiv_le_pos si sj (np_sum scores)).
  - now apply Qdiv_le_neg.
  - now apply (Qdiv_le_neg si sj (np_sum scores)).
Qed.

End DistributionOrder.

(** ** The further theorems at concrete inputs *)


Lemma registered_image_scores_highest_witness :
  nth_error (model_list Gray1D.dark_bright) 0
  = Some (returnHistogramComparisonArray_hist (cv := Gray1D.cv)
            Gray1D.dark_bright Gray1D.dark)
  /\ exists scores best i,
       returnHistogramComparisonArray (cv := Gray1D.cv)
         Gray1D.dark_bright Gray1D.dark "intersection" = Ok scores
       /\ nth_error scores 0 = Some best
       /\ Forall (fun x => x <= best) scores
       /\ np_argmax scores = Ok i
       /\ (i <= 0)%nat.
Proof.
  split; [vm_compute; reflexivity |].
  destruct (registered_image_scores_highest (cv := Gray1D.cv)
              Gray1D.dark_bright Gray1D.dark 0)
    as (scores & best & i & s & H1 & H2 & _ & H4 & H5 & H6 & _).
  - vm_compute; reflexivity.
  - vm_compute. repeat constructor.
  - exists scores, best, i. repeat split; assumption.
Defined.

Lemma intersection_distribution_sums_to_one_iff_witness :
  Forall (fun x => 0 <= x)
    (returnHistogramComparisonArray_hist (cv := Gray1D.cv)
       Gray1D.dark_bright Gray1D.mixed)
  /\ Forall (Forall (fun x => 0 <= x)) (model_list Gray1D.dark_bright)
  /\ exists scores,
       returnHistogramComparisonArray (cv := Gray1D.cv)
         Gray1D.dark_bright Gray1D.mixed "intersection" = Ok scores
       /\ (sums_to (np_divide scores (np_sum scores)) 1
           <-> exists s, In s scores /\ ~ s == 0).
Proof.
  assert (Hh : Forall (fun x => 0 <= x)
                 (returnHistogramComparisonArray_hist (cv := Gray1D.cv)
                    Gray1D.dark_bright Gray1D.mixed)).
  { vm_compute. repeat constructor; discriminate. }
  assert (Hm : Forall (Forall (fun x => 0 <= x)) (model_list Gray1D.dark_bright)).
  { vm_compute. repeat constructor; discriminate. }
  split; [exact Hh |]. split; [exact Hm |].
  destruct (intersection_distribution_sums_to_one_iff (cv := Gray1D.cv)
              Gray1D.dark_bright Gray1D.mixed Hh Hm)
    as (scores & H1 & _ & _ & H4).
  exists scores. split; assumption.
Defined.

Lemma returnHistogramComparisonProbability_order_witness :
  returnHistogramComparisonArray (cv := Gray1D.cv)
    Gray1D.dark_bright Gray1D.dark "intersection" = Ok [1; 0]
  /\ nth_error [1; 0] 0 = Some 1
  /\ nth_error [1; 0] 1 = Some 0
  /\ ~ np_sum [1; 0] == 0
  /\ exists dist di dj,
       returnHistogramComparisonProbability (cv := Gray1D.cv)
         Gray1D.dark_bright Gray1D.dark "intersection" = Ok dist
       /\ nth_error dist 0 = Some (Finite di)
       /\ nth_error dist 1 = Some (Finite dj)
       /\ (0 < np_sum [1; 0] -> (1 <= 0 <-> di <= dj)).
Proof.
  assert (Hscores : returnHistogramComparisonArray (cv := Gray1D.cv)
                      Gray1D.dark_bright Gray1D.dark "intersection" = Ok [1; 0])
    by (vm_compute; reflexivity).
  assert (Hnz : ~ np_sum [1; 0] == 0) by discriminate.
  split; [exact Hscores |].
  split; [reflexivity |]. split; [reflexivity |]. split; [exact Hnz |].
  destruct (returnHistogramComparisonProbability_order (cv := Gray1D.cv)
              Gray1D.dark_bright Gray1D.dark "intersection" [1; 0] 0 1 1 0
              Hscores eq_refl eq_refl Hnz)
    as (dist & di & dj & H1 & H2 & H3 & H4 & _).
  exists dist, di, dj. repeat split; try assumption; apply H4; assumption.
Defined.

(** ** Correlation of a histogram with itself *)

Lemma Qsqrt_square (d : Q) : Qsqrt (d * d) == Qabs d.
Proof.
  assert (Hd : d * d == Qred d * Qred d) by now rewrite Qred_correct.
  assert (Ha : Qabs d == Qabs (Qred d)) by now rewrite Qred_correct.
  rewrite (Qsqrt_comp _ _ Hd), Ha. clear Hd Ha.
  pose proof (gcd_Qred d) as Hg.
  destruct (Qred d) as [a b]. cbv [Qnum Qden] in Hg.
  assert (Hred : Qred ((a # b) * (a # b)) = (a * a) # (b * b)).
  { apply Qred_identity. cbv [Qmult Qnum Qden]. rewrite Pos2Z.inj_mul.
    apply Z.coprime_mul_l; apply Z.coprime_mul_r; exact Hg. }
  unfold Qsqrt. rewrite Hred. cbv [Qnum Qden].
  set (P := (2 ^ 52)%positive).
  assert (H4 : (4 ^ 52 = Z.pos P * Z.pos P)%Z) by (vm_compute; reflexivity).
  rewrite H4.
  replace (a * a * Z.pos (b * b) * (Z.pos P * Z.pos P))%Z
    with ((Z.abs a * Z.pos b * Z.pos P) * (Z.abs a * Z.pos b * Z.pos P))%Z.
  2:{ rewrite Pos2Z.inj_mul.
      replace (a * a)%Z with (Z.abs a * Z.abs a)%Z
        by (rewrite <- Z.abs_mul; apply Z.abs_eq, Z.square_nonneg).
      ring. }
  rewrite Z.sqrt_square
    by (apply Z.mul_nonneg_nonneg; [apply Z.mul_nonneg_nonneg |];
        try apply Z.abs_nonneg; apply Pos2Z.is_nonneg).
  unfold Qabs, Qeq. cbv [Qnum Qden].
  rewrite !Pos2Z.inj_mul. ring.
Qed.

Lemma inject_length_cons (x : Q) (h : list Q) :
  (Z.of_nat (List.length (x :: h)) # 1) == (Z.of_nat (List.length h) # 1) + 1.
Proof.
  simpl List.length. rewrite Nat2Z.inj_succ, <- Z.add_1_r.
  unfold Qeq, Qplus. cbv [Qnum Qden]. lia.
Qed.

(** The squares of the distances to [c] add up to the sum of squares less
    twice [c] times the sum, plus the length times the square of [c]. *)
Lemma Qsum_squared_distances (c : Q) (h : list Q) :
  Qsum (map (fun x => (x - c) * (x - c)) h)
  == Qsum (map (fun x => x * x) h) - 2 * c * Qsum h
     + (Z.of_nat (List.length h) # 1) * c * c.
Proof.
  induction h as [| x h IH].
  - simpl. ring.
  - rewrite inject_length_cons. simpl map. simpl Qsum. rewrite IH. ring.
Qed.

Lemma Qsquare_nonneg (a : Q) : 0 <= a * a.
Proof.
  destruct a as [n d]. unfold Qle, Qmult. cbv [Qnum Qden].
  rewrite Z.mul_0_l, Z.mul_1_r. apply Z.square_nonneg.
Qed.

Lemma Qsum_squares_nonneg (f : Q -> Q) (h : list Q) :
  0 <= Qsum (map (fun x => f x * f x) h).
Proof.
  induction h as [| x h IH]; simpl; [apply Qle_refl |].
  pose proof (Qsquare_nonneg (f x)) as Hx. lra.
Qed.

(** The sum of squares is at least the square of the sum over the length. *)
Lemma variance_nonneg (h : list Q) :
  0 <= Qsum (map (fun x => x * x) h)
       - Qsum h * Qsum h * / (Z.of_nat (List.length h) # 1).
Proof.
  destruct h as [| x0 t].
  - simpl. apply Qle_refl.
  - set (h := x0 :: t). set (n := Z.of_nat (List.length h) # 1).
    assert (Hn : ~ n == 0).
    { unfold n, h, Qeq. simpl List.length. cbv [Qnum Qden].
      rewrite Nat2Z.inj_succ. lia. }
    pose proof (Qsum_squares_nonneg (fun x => x - Qsum h * / n) h) as Hsq.
    cbv beta in Hsq. rewrite (Qsum_squared_distances (Qsum h * / n) h) in Hsq.
    fold n in Hsq.
    assert (E : Qsum (map (fun x => x * x) h) - 2 * (Qsum h * / n) * Qsum h
                + n * (Qsum h * / n) * (Qsum h * / n)
                == Qsum (map (fun x => x * x) h) - Qsum h * Qsum h * / n)
      by (field; exact Hn).
    rewrite E in Hsq. exact Hsq.
Qed.

Lemma combine_self_fst (h : hist) : map fst (combine h h) = h.
Proof.
  induction h as [| x h IH]; simpl; [reflexivity | now rewrite IH].
Qed.

Lemma combine_self_snd (h : hist) : map snd (combine h h) = h.
Proof.
  induction h as [| x h IH]; simpl; [reflexivity | now rewrite IH].
Qed.

Lemma combine_self_map (g : Q * Q -> Q) (h : hist) :
  map g (combine h h) = map (fun x => g (x, x)) h.
Proof.
  induction h as [| x h IH]; simpl; [reflexivity | now rewrite IH].
Qed.

Lemma combine_self_length (h : hist) : List.length (combine h h) = List.length h.
Proof.
  rewrite length_combine. apply Nat.min_id.
Qed.

Lemma correl_of_sums_self (s q scale : Q) :
  0 <= q - s * s * scale ->
  correl_of_sums s s q q q scale == 1.
Proof.
  intros Hd. unfold correl_of_sums.
  set (d := q - s * s * scale) in *.
  destruct (Qle_bool (Qabs (d * d)) DBL_EPSILON) eqn:E; [reflexivity |].
  rewrite Qsqrt_square, (Qabs_pos d Hd).
  assert (Hnz : ~ d == 0).
  { intros Hz. assert (Ht : Qle_bool (Qabs (d * d)) DBL_EPSILON = true).
    { apply Qle_bool_iff. rewrite Hz. discriminate. }
    congruence. }
  unfold Qdiv. now apply Qmult_inv_r.
Qed.

(** X10: with "correlation", every histogram compared with itself scores
    1, whatever its bins sum to. *)
Theorem returnHistogramComparison_self_correlation (h : hist) :
  exists v, returnHistogramComparison h h "correlation" = Ok v /\ v == 1.
Proof.
  exists (compareHist_correl h h). split; [reflexivity |].
  unfold compareHist_correl.
  rewrite combine_self_fst, combine_self_snd, combine_self_length.
  rewrite !(combine_self_map _ h). simpl fst. simpl snd.
  apply correl_of_sums_self, variance_nonneg.
Qed.

(** * The methods with the errors of OpenCV *)

Lemma supported_dec (method : string) : {supported method} + {~ supported method}.
Proof.
  destruct (string_dec method "intersection") as [Hi | Hi]; [left; now left |].
  destruct (string_dec method "correlation") as [Hc | Hc]; [left; now right |].
  right. intros [H | H]; contradiction.
Qed.

Lemma cv2_compareHist_same_length (h1 h2 : hist) (m : HistCompMethod) :
  List.length h1 = List.length h2 ->
  Delegated.cv2_compareHist h1 h2 m = Ok (compareHist h1 h2 m).
Proof.
  intros H. unfold Delegated.cv2_compareHist.
  apply Nat.eqb_eq in H. now rewrite H.
Qed.

Lemma cv2_compareHist_other_length (h1 h2 : hist) (m : HistCompMethod) :
  List.length h1 <> List.length h2 ->
  Delegated.cv2_compareHist h1 h2 m
  = Raise (Cv2Error "compareHist: the histograms differ in size").
Proof.
  intros H. unfold Delegated.cv2_compareHist.
  apply Nat.eqb_neq in H. now rewrite H.
Qed.

Lemma delegated_comparison_supported (hist_1 hist_2 : hist) (method : string) :
  supported method ->
  Delegated.returnHistogramComparison hist_1 hist_2 method
  = Delegated.cv2_compareHist hist_1 hist_2 (metric_of method).
Proof.
  intros [-> | ->]; reflexivity.
Qed.

Lemma delegated_comparison_unsupported (hist_1 hist_2 : hist) (method : string) :
  ~ supported method ->
  Delegated.returnHistogramComparison hist_1 hist_2 method
  = Raise (ValueError (unsupported_message method)).
Proof.
  intros Hm. unfold Delegated.returnHistogramComparison.
  destruct (String.eqb_spec method "intersection") as [-> | _].
  { exfalso. apply Hm. now left. }
  destruct (String.eqb_spec method "correlation") as [-> | _].
  { exfalso. apply Hm. now right. }
  reflexivity.
Qed.

(** The error of a supported comparison is the one of [cv2.compareHist],
    and it is raised exactly on histograms of different lengths. *)
Lemma delegated_comparison_supported_cases (hist_1 hist_2 : hist) (method : string) :
  supported method ->
  (List.length hist_1 = List.length hist_2
   /\ Delegated.returnHistogramComparison hist_1 hist_2 method
      = Ok (compareHist hist_1 hist_2 (metric_of method)))
  \/ (List.length hist_1 <> List.length hist_2
      /\ Delegated.returnHistogramComparison hist_1 hist_2 method
         = Raise (Cv2Error "compareHist: the histograms differ in size")).
Proof.
  intros Hm. rewrite (delegated_comparison_supported _ _ _ Hm).
  destruct (Nat.eq_dec (List.length hist_1) (List.length hist_2)) as [E | E].
  - left. split; [exact E | now apply cv2_compareHist_same_length].
  - right. split; [exact E | now apply cv2_compareHist_other_length].
Qed.

(** The loop either raises the error of the comparison with one of the
    models, or fills the array with the scores of all of them, in order. *)
Lemma delegated_loop_cases (image_hist : hist) (method : string) (models : list hist) :
  forall done : list Q,
    (exists e m,
        Delegated.comparison_loop image_hist method models
          (done ++ np_zeros (List.length models)) (List.length done) = Raise e
        /\ In m models
        /\ Delegated.returnHistogramComparison image_hist m method = Raise e)
    \/ (exists scores,
           Delegated.comparison_loop image_hist method models
             (done ++ np_zeros (List.length models)) (List.length done)
           = Ok (done ++ scores)
           /\ Forall2 (fun m s =>
                         Delegated.returnHistogramComparison image_hist m method = Ok s)
                models scores).
Proof.
  unfold np_zeros.
  induction models as [| m models IH]; intros done; simpl.
  - right. exists []. split; [reflexivity | constructor].
  - destruct (Delegated.returnHistogramComparison image_hist m method) as [v | e] eqn:E;
      simpl.
    + rewrite np_setitem_app. simpl.
      specialize (IH (done ++ [v])).
      rewrite length_app in IH. simpl in IH. rewrite Nat.add_1_r in IH.
      rewrite <- !app_assoc in IH. simpl in IH.
      destruct IH as [(e & m' & Hloop & Hin & He) | (scores & Hloop & Hall)].
      * left. exists e, m'. auto.
      * right. exists (v :: scores). split.
        -- rewrite Hloop, <- app_assoc. reflexivity.
        -- now constructor.
    + left. exists e, m. auto.
Qed.

Lemma Forall2_scores (score : hist -> Q) (R : hist -> Q -> Prop)
    (models : list hist) (scores : list Q) :
  (forall m s, In m models -> R m s -> s = score m) ->
  Forall2 R models scores ->
  scores = map score models.
Proof.
  intros Hscore Hall. induction Hall as [| m s models scores Hms _ IH]; simpl.
  - reflexivity.
  - rewrite (Hscore m s (or_introl eq_refl) Hms). f_equal.
    apply IH. intros m' s' Hin. apply Hscore. now right.
Qed.

Lemma delegated_loop_same_length (image_hist : hist) (method : string)
    (models : list hist) :
  supported method ->
  Forall (fun m => List.length m = List.length image_hist) models ->
  Delegated.comparison_loop image_hist method models
    (np_zeros (List.length models)) 0
  = Ok (map (fun m => compareHist image_hist m (metric_of method)) models).
Proof.
  intros Hm Hlen. rewrite Forall_forall in Hlen.
  assert (Hok : forall m, In m models ->
             Delegated.returnHistogramComparison image_hist m method
             = Ok (compareHist image_hist m (metric_of method))).
  { intros m Hin. rewrite (delegated_comparison_supported _ _ _ Hm).
    apply cv2_compareHist_same_length. symmetry. now apply Hlen. }
  destruct (delegated_loop_cases image_hist method models [])
    as [(e & m & _ & Hin & He) | (scores & Hloop & Hall)].
  - rewrite (Hok m Hin) in He. discriminate He.
  - simpl in Hloop. rewrite Hloop. f_equal.
    eapply Forall2_scores; [| exact Hall].
    intros m s Hin Hs. cbv beta in Hs. rewrite (Hok m Hin) in Hs.
    now injection Hs.
Qed.

Lemma delegated_loop_other_length (image_hist : hist) (method : string)
    (models : list hist) :
  supported method ->
  ~ Forall (fun m => List.length m = List.length image_hist) models ->
  Delegated.comparison_loop image_hist method models
    (np_zeros (List.length models)) 0
  = Raise (Cv2Error "compareHist: the histograms differ in size").
Proof.
  intros Hm Hlen.
  destruct (delegated_loop_cases image_hist method models [])
    as [(e & m & Hloop & Hin & He) | (scores & Hloop & Hall)].
  - simpl in Hloop. rewrite Hloop. f_equal.
    destruct (delegated_comparison_supported_cases image_hist m method Hm)
      as [(_ & Hok) | (_ & Herr)]; congruence.
  - exfalso. apply Hlen. clear Hloop Hlen.
    induction Hall as [| m s models scores Hms _ IH]; constructor; [| exact IH].
    destruct (delegated_comparison_supported_cases image_hist m method Hm)
      as [(Hl & _) | (_ & Herr)]; [now symmetry | congruence].
Qed.

Lemma delegated_loop_unsupported (image_hist : hist) (method : string)
    (m : hist) (models : list hist) (comparison_array : list Q) (counter : nat) :
  ~ supported method ->
  Delegated.comparison_loop image_hist method (m :: models) comparison_array counter
  = Raise (ValueError (unsupported_message method)).
Proof.
  intros Hm. simpl. now rewrite (delegated_comparison_unsupported _ _ _ Hm).
Qed.

Lemma unsupported_iff (method : string) :
  ~ supported method
  <-> method <> "intersection"%string /\ method <> "correlation"%string.
Proof.
  unfold supported. split.
  - intros H. split; intros E; apply H; [now left | now right].
  - intros [Hi Hc] [E | E]; contradiction.
Qed.

Lemma unsupported_message_contains (method : string) :
  contains (unsupported_message method) method.
Proof.
  unfold unsupported_message. eexists _, _. reflexivity.
Qed.

(** C2, as amended: on histograms of equal length
    [returnHistogramComparison] raises exactly when the method is neither
    "intersection" nor "correlation".  On all histograms it raises a
    [ValueError] exactly then, and the message contains the method, as for
    "bogus"; a supported method raises exactly on histograms of different
    lengths, and then the error of [cv2.compareHist]. *)
Theorem returnHistogramComparison_raises_iff_unsupported
    (hist_1 hist_2 : hist) (method : string) :
  (List.length hist_1 = List.length hist_2 ->
   (raises (Delegated.returnHistogramComparison hist_1 hist_2 method)
    <-> method <> "intersection"%string /\ method <> "correlation"%string))
  /\ ((exists msg,
          Delegated.returnHistogramComparison hist_1 hist_2 method
          = Raise (ValueError msg))
      <-> method <> "intersection"%string /\ method <> "correlation"%string)
  /\ (forall msg,
         Delegated.returnHistogramComparison hist_1 hist_2 method
         = Raise (ValueError msg) ->
         contains msg method)
  /\ (supported method ->
      (raises (Delegated.returnHistogramComparison hist_1 hist_2 method)
       <-> List.length hist_1 <> List.length hist_2)
      /\ forall e,
           Delegated.returnHistogramComparison hist_1 hist_2 method = Raise e ->
           exists msg, e = Cv2Error msg)
  /\ (exists msg,
         Delegated.returnHistogramComparison hist_1 hist_2 "bogus"
         = Raise (ValueError msg)
         /\ contains msg "bogus").
Proof.
  destruct (supported_dec method) as [Hm | Hm].
  - pose proof (delegated_comparison_supported_cases hist_1 hist_2 method Hm) as Hc.
    assert (Hno : ~ (method <> "intersection"%string /\ method <> "correlation"%string))
      by (intros Hu; now apply unsupported_iff in Hu).
    split; [| split; [| split; [| split]]].
    + intros Hlen. split; [| intros Hu; contradiction].
      intros [e He]. destruct Hc as [(_ & Hok) | (Hne & _)]; [congruence | contradiction].
    + split; [| intros Hu; contradiction].
      intros [msg He]. destruct Hc as [(_ & Hok) | (_ & Herr)]; congruence.
    + intros msg He. destruct Hc as [(_ & Hok) | (_ & Herr)]; congruence.
    + intros _. split; [split |].
      * intros [e He]. destruct Hc as [(_ & Hok) | (Hne & _)]; [congruence | exact Hne].
      * intros Hne. destruct Hc as [(Hl & _) | (_ & Herr)]; [contradiction |].
        eexists. exact Herr.
      * intros e He. destruct Hc as [(_ & Hok) | (_ & Herr)]; [congruence |].
        rewrite Herr in He. injection He as <-. eexists. reflexivity.
    + eexists. split; [reflexivity | apply (unsupported_message_contains "bogus")].
  - pose proof (delegated_comparison_unsupported hist_1 hist_2 method Hm) as Herr.
    pose proof (proj1 (unsupported_iff method) Hm) as Hu.
    split; [| split; [| split; [| split]]].
    + intros _. split; [intros _; exact Hu | intros _; eexists; exact Herr].
    + split; [intros _; exact Hu | intros _; eexists; exact Herr].
    + intros msg He. rewrite Herr in He. injection He as <-.
      apply unsupported_message_contains.
    + intros Hs. contradiction.
    + eexists. split; [reflexivity | apply (unsupported_message_contains "bogus")].
Qed.

(** C2, as stated, fails on histograms of different lengths: with
    "intersection", a two-bin and a three-bin histogram make
    [cv2.compareHist] raise, so an error is raised under a supported
    method. *)
Lemma unequal_lengths_counterexample :
  supported "intersection"
  /\ Delegated.returnHistogramComparison [1; 0] [1; 0; 0] "intersection"
     = Raise (Cv2Error "compareHist: the histograms differ in size")
  /\ ~ raises_iff_unsupported [1; 0] [1; 0; 0] "intersection".
Proof.
  split; [now left |]. split; [reflexivity |].
  intros [Hraises _].
  destruct Hraises as [Hi _]; [eexists; reflexivity | now apply Hi].
Qed.

Section DelegatedFacts.

Context {cv : Cv2} {acc : Cv2Accepts cv}.

(** What the pipeline raises is an error of OpenCV. *)
Lemma delegated_hist_error (self : HistogramColorClassifier) (image : frame) (e : exn) :
  Delegated.returnHistogramComparisonArray_hist self image = Raise e ->
  exists msg, e = Cv2Error msg.
Proof.
  unfold Delegated.returnHistogramComparisonArray_hist,
    Delegated.cv2_cvtColor, Delegated.cv2_calcHist, Delegated.cv2_normalize.
  repeat match goal with
         | |- context [if ?b then _ else _] => destruct b; simpl
         end;
    intros H; try discriminate H; injection H as <-; eexists; reflexivity.
Qed.

(** What the pipeline returns is the histogram of the error-free reading. *)
Lemma delegated_hist_value (self : HistogramColorClassifier) (image : frame) (h : hist) :
  Delegated.returnHistogramComparisonArray_hist self image = Ok h ->
  h = returnHistogramComparisonArray_hist self image.
Proof.
  unfold Delegated.returnHistogramComparisonArray_hist,
    returnHistogramComparisonArray_hist,
    Delegated.cv2_cvtColor, Delegated.cv2_calcHist, Delegated.cv2_normalize.
  repeat match goal with
         | |- context [if ?b then _ else _] => destruct b; simpl
         end;
    intros H; try discriminate H; now injection H as <-.
Qed.

Lemma delegated_array_result (self : HistogramColorClassifier) (image : frame)
    (method : string) :
  Delegated.returnHistogramComparisonArray self image method
  = match Delegated.returnHistogramComparisonArray_hist self image with
    | Raise e => Raise e
    | Ok h =>
        Delegated.comparison_loop h method (model_list self)
          (np_zeros (List.length (model_list self))) 0
    end.
Proof.
  unfold Delegated.returnHistogramComparisonArray.
  now destruct (Delegated.returnHistogramComparisonArray_hist self image).
Qed.

Lemma same_length_dec (h : hist) (models : list hist) :
  {Forall (fun m => List.length m = List.length h) models}
  + {~ Forall (fun m => List.length m = List.length h) models}.
Proof.
  apply Forall_dec. intros m. apply Nat.eq_dec.
Qed.

(** The result of [returnHistogramComparisonArray], case by case. *)
Lemma delegated_array_cases (self : HistogramColorClassifier) (image : frame)
    (method : string) :
  (forall e,
      Delegated.returnHistogramComparisonArray_hist self image = Raise e ->
      Delegated.returnHistogramComparisonArray self image method = Raise e
      /\ exists msg, e = Cv2Error msg)
  /\ (forall h,
         Delegated.returnHistogramComparisonArray_hist self image = Ok h ->
         (model_list self = [] ->
          Delegated.returnHistogramComparisonArray self image method = Ok [])
         /\ (model_list self <> [] -> ~ supported method ->
             Delegated.returnHistogramComparisonArray self image method
             = Raise (ValueError (unsupported_message method)))
         /\ (supported method ->
             Forall (fun m => List.length m = List.length h) (model_list self) ->
             Delegated.returnHistogramComparisonArray self image method
             = Ok (map (fun m => compareHist h m (metric_of method)) (model_list self)))
         /\ (supported method ->
             ~ Forall (fun m => List.length m = List.length h) (model_list self) ->
             Delegated.returnHistogramComparisonArray self image method
             = Raise (Cv2Error "compareHist: the histograms differ in size"))).
Proof.
  rewrite delegated_array_result. split.
  - intros e He. rewrite He. split; [reflexivity |].
    now apply (delegated_hist_error self image).
  - intros h Hh. rewrite Hh. repeat split.
    + intros ->. reflexivity.
    + intros Hne Hm. destruct (model_list self) as [| m models]; [contradiction |].
      now apply delegated_loop_unsupported.
    + intros Hm Hlen. now apply delegated_loop_same_length.
    + intros Hm Hlen. now apply delegated_loop_other_length.
Qed.

(** The errors of [returnHistogramComparisonArray]. *)
Lemma delegated_array_errors (self : HistogramColorClassifier) (image : frame)
    (method : string) :
  ((exists msg,
       Delegated.returnHistogramComparisonArray self image method
       = Raise (ValueError msg))
   <-> (exists h, Delegated.returnHistogramComparisonArray_hist self image = Ok h)
       /\ model_list self <> [] /\ ~ supported method)
  /\ (forall e,
         Delegated.returnHistogramComparisonArray self image method = Raise e ->
         (exists msg, e = Cv2Error msg) \/ e = ValueError (unsupported_message method)).
Proof.
  destruct (delegated_array_cases self image method) as [Herr Hok].
  destruct (Delegated.returnHistogramComparisonArray_hist self image) as [h | e0] eqn:Eh.
  - destruct (Hok h eq_refl) as (Hempty & Hunsup & Hsame & Hother).
    destruct (supported_dec method) as [Hm | Hm].
    + destruct (same_length_dec h (model_list self)) as [Hl | Hl].
      * rewrite (Hsame Hm Hl). split.
        -- split; [intros [msg H]; discriminate H | intros (_ & _ & Hn); contradiction].
        -- intros e H. discriminate H.
      * rewrite (Hother Hm Hl). split.
        -- split; [intros [msg H]; discriminate H | intros (_ & _ & Hn); contradiction].
        -- intros e H. injection H as <-. left. eexists. reflexivity.
    + destruct (model_list self) as [| m models] eqn:Em.
      * rewrite (Hempty eq_refl). split.
        -- split; [intros [msg H]; discriminate H |].
           intros (_ & Hn & _). now contradiction Hn.
        -- intros e H. discriminate H.
      * assert (Hne : m :: models <> []) by discriminate.
        rewrite (Hunsup Hne Hm). split.
        -- split; [| intros _; eexists; reflexivity].
           intros _. split; [now exists h |]. split; assumption.
        -- intros e H. injection H as <-. now right.
  - destruct (Herr e0 eq_refl) as (Hraise & msg0 & ->). rewrite Hraise. split.
    + split; [intros [msg H]; discriminate H |].
      intros ([h H] & _). discriminate H.
    + intros e H. injection H as <-. left. eexists. reflexivity.
Qed.

(** X4: [returnHistogramComparisonArray] first takes the histogram of the
    image, and an error of OpenCV there is raised whatever the store and
    the method are.  Past that, it raises the [ValueError] naming the method
    exactly when a model is registered and the method is unsupported (with
    no model an unsupported method goes unnoticed and the empty array is
    returned); a supported method returns the scores when every stored
    histogram has the length of the image's, and raises the error of
    [cv2.compareHist] otherwise.  No other error is raised, so the array
    assignment never fails. *)
Theorem returnHistogramComparisonArray_raises_iff
    (self : HistogramColorClassifier) (image : frame) (method : string) :
  (forall e,
      Delegated.returnHistogramComparisonArray_hist self image = Raise e ->
      Delegated.returnHistogramComparisonArray self image method = Raise e
      /\ exists msg, e = Cv2Error msg)
  /\ (forall h,
         Delegated.returnHistogramComparisonArray_hist self image = Ok h ->
         (model_list self = [] ->
          Delegated.returnHistogramComparisonArray self image method = Ok [])
         /\ (model_list self <> [] -> ~ supported method ->
             Delegated.returnHistogramComparisonArray self image method
             = Raise (ValueError (unsupported_message method)))
         /\ (supported method ->
             Forall (fun m => List.length m = List.length h) (model_list self) ->
             Delegated.returnHistogramComparisonArray self image method
             = Ok (map (fun m => compareHist h m (metric_of method)) (model_list self)))
         /\ (supported method ->
             ~ Forall (fun m => List.length m = List.length h) (model_list self) ->
             Delegated.returnHistogramComparisonArray self image method
             = Raise (Cv2Error "compareHist: the histograms differ in size")))
  /\ ((exists msg,
          Delegated.returnHistogramComparisonArray self image method
          = Raise (ValueError msg))
      <-> (exists h, Delegated.returnHistogramComparisonArray_hist self image = Ok h)
          /\ model_list self <> [] /\ ~ supported method)
  /\ (forall e,
         Delegated.returnHistogramComparisonArray self image method = Raise e ->
         (exists msg, e = Cv2Error msg) \/ e = ValueError (unsupported_message method)).
Proof.
  destruct (delegated_array_cases self image method) as [H1 H2].
  destruct (delegated_array_errors self image method) as [H3 H4].
  split; [exact H1 |]. split; [exact H2 |]. split; [exact H3 | exact H4].
Qed.



(** Whatever the methods with the errors of OpenCV return is what the
    error-free reading returns. *)
Lemma delegated_returns_refine (self : HistogramColorClassifier) (image : frame)
    (method : string) :
  (forall index r,
      Delegated.addModelHistogram self image index = Ok r ->
      r = addModelHistogram self image index)
  /\ (forall scores,
         Delegated.returnHistogramComparisonArray self image method = Ok scores ->
         returnHistogramComparisonArray self image method = Ok scores)
  /\ (forall dist,
         Delegated.returnHistogramComparisonProbability self image method = Ok dist ->
         returnHistogramComparisonProbability self image method = Ok dist).
Proof.
  assert (Harray : forall scores,
             Delegated.returnHistogramComparisonArray self image method = Ok scores ->
             returnHistogramComparisonArray self image method = Ok scores).
  { intros scores Hs.
    destruct (delegated_array_cases self image method) as [Herr Hok].
    destruct (Delegated.returnHistogramComparisonArray_hist self image)
      as [h | e] eqn:Eh.
    2:{ destruct (Herr e eq_refl) as (Hr & _). congruence. }
    pose proof (delegated_hist_value self image h Eh) as Hh.
    destruct (Hok h eq_refl) as (Hempty & Hunsup & Hsame & Hother).
    destruct (supported_dec method) as [Hm | Hm].
    - destruct (same_length_dec h (model_list self)) as [Hl | Hl].
      + rewrite (Hsame Hm Hl) in Hs. rewrite <- Hs, Hh.
        now apply returnHistogramComparisonArray_map.
      + rewrite (Hother Hm Hl) in Hs. discriminate Hs.
    - destruct (model_list self) as [| m models] eqn:Em.
      + rewrite (Hempty eq_refl) in Hs. rewrite <- Hs.
        unfold returnHistogramComparisonArray. now rewrite Em.
      + assert (Hne : m :: models <> []) by discriminate.
        rewrite (Hunsup Hne Hm) in Hs. discriminate Hs. }
  split; [| split; [exact Harray |]].
  - intros index r. unfold Delegated.addModelHistogram, addModelHistogram.
    destruct (Delegated.addModelHistogram_hist self image) as [h | e] eqn:Eh;
      simpl; intros H; [| discriminate H].
    injection H as <-. do 3 f_equal.
    revert Eh. unfold Delegated.addModelHistogram_hist, addModelHistogram_hist,
      Delegated.cv2_cvtColor, Delegated.cv2_calcHist, Delegated.cv2_normalize.
    repeat match goal with
           | |- context [if ?b then _ else _] => destruct b; simpl
           end;
      intros H; try discriminate H; now injection H as <-.
  - intros dist. unfold Delegated.returnHistogramComparisonProbability,
      returnHistogramComparisonProbability.
    destruct (Delegated.returnHistogramComparisonArray self image method)
      as [scores | e] eqn:Es; simpl; intros H; [| discriminate H].
    now rewrite (Harray scores eq_refl).
Qed.

End DelegatedFacts.


